(** * view-review: the Flask route layer of [app.py] and its time filter

    A shallow embedding of [src/app.py].  Python values are a small
    inductive universe, a [str] is its list of code points, the remote
    GitHub client is an oracle answering the calls a handler makes, and a
    handler is a finite tree of such calls ending in a response or in an
    exception that leaves the handler. *)

From Stdlib Require Import List String Ascii NArith ZArith Bool Lia.
From Stdlib Require Import DecimalString.
Import ListNotations.

Set Implicit Arguments.

(* ================================================================== *)
(** ** Python strings *)

(** A Python [str] is a sequence of Unicode code points. *)
Definition pystr := list N.

(** Decoding of a UTF-8 literal of this file into code points, so that the
    literals of the source can be written as they are. *)
Fixpoint utf8_decode (bs : list N) : pystr :=
  match bs with
  | [] => []
  | b0 :: t0 =>
      if (b0 <? 128)%N then b0 :: utf8_decode t0
      else match t0 with
      | [] => []
      | b1 :: t1 =>
          if (b0 <? 224)%N
          then ((b0 - 192) * 64 + (b1 - 128))%N :: utf8_decode t1
          else match t1 with
          | [] => []
          | b2 :: t2 =>
              if (b0 <? 240)%N
              then ((b0 - 224) * 4096 + (b1 - 128) * 64 + (b2 - 128))%N
                     :: utf8_decode t2
              else match t2 with
              | [] => []
              | b3 :: t3 =>
                  ((b0 - 240) * 262144 + (b1 - 128) * 4096
                   + (b2 - 128) * 64 + (b3 - 128))%N :: utf8_decode t3
              end
          end
      end
  end.

Definition py (s : string) : pystr :=
  utf8_decode (map N_of_ascii (list_ascii_of_string s)).

Fixpoint pystr_eqb (a b : pystr) : bool :=
  match a, b with
  | [], [] => true
  | x :: a', y :: b' => (x =? y)%N && pystr_eqb a' b'
  | _, _ => false
  end.

(** [str(n)] for a non-negative [int]. *)
Definition str_of_N (n : N) : pystr :=
  py (NilEmpty.string_of_uint (N.to_uint n)).

(** [str(z)] for an [int]. *)
Definition str_of_Z (z : Z) : pystr :=
  match z with
  | Zneg p => py "-" ++ str_of_N (Npos p)
  | _ => str_of_N (Z.to_N z)
  end.

(** [str.isspace] on one code point: the characters [str.strip()] removes. *)
Definition isspace (c : N) : bool :=
  ((9 <=? c) && (c <=? 13) || (28 <=? c) && (c <=? 32)
   || (c =? 133) || (c =? 160) || (c =? 5760)
   || (8192 <=? c) && (c <=? 8202)
   || (c =? 8232) || (c =? 8233) || (c =? 8239) || (c =? 8287)
   || (c =? 12288))%N.

Fixpoint lstrip (s : pystr) : pystr :=
  match s with
  | [] => []
  | c :: s' => if isspace c then lstrip s' else s
  end.

Definition rstrip (s : pystr) : pystr := rev (lstrip (rev s)).

(** [s.strip()] *)
Definition strip (s : pystr) : pystr := rstrip (lstrip s).

(** [s.lower()] on the letters A to Z; the other code points are kept.  The
    handlers only compare the result with the literal [true], and no code
    point outside A to Z lower-cases to one of its letters. *)
Definition lower_char (c : N) : N :=
  if ((65 <=? c) && (c <=? 90))%N then (c + 32)%N else c.

Definition lower (s : pystr) : pystr := map lower_char s.

(** [s.replace(old, new)] for a one-character [old]. *)
Definition replace_char (old : N) (new : pystr) (s : pystr) : pystr :=
  flat_map (fun c => if (c =? old)%N then new else [c]) s.

(** [s[:n]] *)
Definition prefix_slice (n : nat) (s : pystr) : pystr := firstn n s.

(** [not s] for a [str]. *)
Definition empty (s : pystr) : bool :=
  match s with [] => true | _ => false end.

(* ================================================================== *)
(** ** Python values *)

(** The values that travel between the GitHub client, the handlers and the
    templates: decoded JSON, plus [markupsafe.Markup] strings.  A [dict]
    keeps its items in insertion order. *)
#[local] Unset Elimination Schemes.
Inductive pyval : Type :=
  | VNone
  | VBool (b : bool)
  | VInt (z : Z)
  | VStr (s : pystr)
  | VMarkup (s : pystr)
  | VList (l : list pyval)
  | VDict (d : list (pystr * pyval)).
#[local] Set Elimination Schemes.

(** Exceptions, each with its [str(e)].  The handlers tell [GitHubAPIError]
    from every other subclass of [Exception]. *)
Inductive exn : Type :=
  | GitHubAPIError (msg : pystr)
  | OtherException (msg : pystr).

Definition str_exn (e : exn) : pystr :=
  match e with GitHubAPIError m => m | OtherException m => m end.

Inductive result (A : Type) : Type :=
  | Ok (a : A)
  | Err (e : exn).
Arguments Ok {A} a.
Arguments Err {A} e.

Definition rbind {A B} (r : result A) (f : A -> result B) : result B :=
  match r with Ok a => f a | Err e => Err e end.

(** Truth value of an object, as [if x:] and [not x] take it. *)
Definition truthy (v : pyval) : bool :=
  match v with
  | VNone => false
  | VBool b => b
  | VInt z => negb (z =? 0)%Z
  | VStr s | VMarkup s => match s with [] => false | _ => true end
  | VList l => match l with [] => false | _ => true end
  | VDict d => match d with [] => false | _ => true end
  end.

Definition type_name (v : pyval) : pystr :=
  match v with
  | VNone => py "NoneType"
  | VBool _ => py "bool"
  | VInt _ => py "int"
  | VStr _ => py "str"
  | VMarkup _ => py "Markup"
  | VList _ => py "list"
  | VDict _ => py "dict"
  end.

Fixpoint lookup (A : Type) (k : pystr) (d : list (pystr * A)) : option A :=
  match d with
  | [] => None
  | (k', v) :: d' => if pystr_eqb k k' then Some v else lookup k d'
  end.

(** [d[k] = v] on the items of a dict: an existing key keeps its place. *)
Fixpoint store (A : Type) (k : pystr) (v : A) (d : list (pystr * A))
  : list (pystr * A) :=
  match d with
  | [] => [(k, v)]
  | (k', v') :: d' =>
      if pystr_eqb k k' then (k, v) :: d' else (k', v') :: store k v d'
  end.

(** [v[k]] with a [str] key; the messages are those of CPython 3.11. *)
Definition getitem (v : pyval) (k : pystr) : result pyval :=
  match v with
  | VDict d =>
      match lookup k d with
      | Some x => Ok x
      | None => Err (OtherException (py "'" ++ k ++ py "'"))
      end
  | VStr _ | VMarkup _ =>
      Err (OtherException (py "string indices must be integers, not 'str'"))
  | VList _ =>
      Err (OtherException
             (py "list indices must be integers or slices, not str"))
  | _ =>
      Err (OtherException
             (py "'" ++ type_name v ++ py "' object is not subscriptable"))
  end.

(** [v.get(k, default)]: only a dict has the method. *)
Definition py_get (v : pyval) (k : pystr) (default : pyval) : result pyval :=
  match v with
  | VDict d =>
      match lookup k d with Some x => Ok x | None => Ok default end
  | _ =>
      Err (OtherException
             (py "'" ++ type_name v ++ py "' object has no attribute 'get'"))
  end.

(** [v[k] = x] with a [str] key. *)
Definition setitem (v : pyval) (k : pystr) (x : pyval) : result pyval :=
  match v with
  | VDict d => Ok (VDict (store k x d))
  | VList _ =>
      Err (OtherException
             (py "list indices must be integers or slices, not str"))
  | _ =>
      Err (OtherException
             (py "'" ++ type_name v
                ++ py "' object does not support item assignment"))
  end.

(** The items a [for] loop over [v] visits. *)
Definition py_iter (v : pyval) : result (list pyval) :=
  match v with
  | VList l => Ok l
  | VDict d => Ok (map (fun kv => VStr (fst kv)) d)
  | VStr s | VMarkup s => Ok (map (fun c => VStr [c]) s)
  | _ =>
      Err (OtherException
             (py "'" ++ type_name v ++ py "' object is not iterable"))
  end.

(** The body of a [for] loop run on each item in turn, in the error monad. *)
Fixpoint for_each (A B : Type) (f : A -> result B) (l : list A)
  : result (list B) :=
  match l with
  | [] => Ok []
  | a :: l' =>
      match f a with
      | Err e => Err e
      | Ok b =>
          match for_each f l' with
          | Err e => Err e
          | Ok bs => Ok (b :: bs)
          end
      end
  end.

(* ================================================================== *)
(** ** The GitHub client, seen from the handlers *)

(** One call of a method of [github_api], with its arguments. *)
Inductive api_call : Type :=
  | get_repo_info
  | get_my_pr_list (state : pystr)
  | get_comments_for_pr (owner name : pyval) (pr_number : N)
                        (include_resolved : bool)
  | add_reply_to_comment (owner name : pyval) (pr_number : N)
                         (comment_id : pyval) (body : pystr).

Inductive api_method : Type :=
  | m_get_repo_info
  | m_get_my_pr_list
  | m_get_comments_for_pr
  | m_add_reply_to_comment.

Definition method_of (c : api_call) : api_method :=
  match c with
  | get_repo_info => m_get_repo_info
  | get_my_pr_list _ => m_get_my_pr_list
  | get_comments_for_pr _ _ _ _ => m_get_comments_for_pr
  | add_reply_to_comment _ _ _ _ _ => m_add_reply_to_comment
  end.

Definition api_method_eqb (a b : api_method) : bool :=
  match a, b with
  | m_get_repo_info, m_get_repo_info
  | m_get_my_pr_list, m_get_my_pr_list
  | m_get_comments_for_pr, m_get_comments_for_pr
  | m_add_reply_to_comment, m_add_reply_to_comment => true
  | _, _ => false
  end.

(** A handler: it returns, lets an exception out, or calls the client and
    goes on with what the call returned or raised. *)
Inductive prog (A : Type) : Type :=
  | Ret (a : A)
  | Raise (e : exn)
  | Call (c : api_call) (k : result pyval -> prog A).
Arguments Ret {A} a.
Arguments Raise {A} e.
Arguments Call {A} c k.

Fixpoint bind {A B} (p : prog A) (f : A -> prog B) : prog B :=
  match p with
  | Ret a => f a
  | Raise e => Raise e
  | Call c k => Call c (fun r => bind (k r) f)
  end.

Notation "x <- p ;; q" := (bind p (fun x => q))
  (at level 61, p at next level, right associativity).

(** A call whose exception, if any, is raised at the call site. *)
Definition call (c : api_call) : prog pyval :=
  Call c (fun r => match r with Ok v => Ret v | Err e => Raise e end).

(** A step that touches no remote service. *)
Definition lift {A} (r : result A) : prog A :=
  match r with Ok a => Ret a | Err e => Raise e end.

(** [try: p  except ... as e: h e].  An exception raised inside the [except]
    clause is not caught again. *)
Fixpoint try_except {A} (p : prog A) (h : exn -> prog A) : prog A :=
  match p with
  | Ret a => Ret a
  | Raise e => h e
  | Call c k => Call c (fun r => try_except (k r) h)
  end.

(** The remote side: what a call answers, given the calls made before it
    while the same request is handled. *)
Definition oracle := list api_call -> api_call -> result pyval.

Inductive outcome (A : Type) : Type :=
  | Returned (a : A)
  | Propagated (e : exn).
Arguments Returned {A} a.
Arguments Propagated {A} e.

(** Running a handler against the remote side, logging the calls it makes
    after those of [hist]. *)
Fixpoint run {A} (o : oracle) (p : prog A) (hist : list api_call)
  : outcome A * list api_call :=
  match p with
  | Ret a => (Returned a, hist)
  | Raise e => (Propagated e, hist)
  | Call c k => run o (k (o hist c)) (hist ++ [c])
  end.

(* ================================================================== *)
(** ** Flask: requests, responses, templates *)

(** [request.args] and [request.form]: the first value of a key wins. *)
Record request : Type := {
  args : list (pystr * pystr);
  form : list (pystr * pystr)
}.

(** [d.get(key, default)] on a MultiDict. *)
Definition multi_get (d : list (pystr * pystr)) (key : pystr)
  (default : pystr) : pystr :=
  match lookup key d with Some v => v | None => default end.

(** [d.get(key)] on a MultiDict: the value, or [None]. *)
Definition multi_get_none (d : list (pystr * pystr)) (key : pystr) : pyval :=
  match lookup key d with Some v => VStr v | None => VNone end.

(** The configuration object of [get_config]; the routes read one attribute
    and hand the object to the templates. *)
Record Config : Type := { DEFAULT_PR_STATE : pystr }.

(** A keyword argument of [render_template]. *)
Inductive tval : Type :=
  | TVal (v : pyval)
  | TConfig (c : Config).

Definition context := list (pystr * tval).

(** What the view functions lean on and [app.py] does not define: Flask's
    [render_template] over the templates of the repository, which may raise,
    and [repr] on lists and dicts, which [Markup] of such a value needs. *)
Record Runtime : Type := {
  render_template : pystr -> context -> result pystr;
  py_repr : pyval -> pystr
}.

Inductive body : Type :=
  | Html (h : pystr)
  | Json (d : list (pystr * pyval)).

(** A view's return value: a [str] is an HTML body, a [dict] a JSON body,
    and a value without a status code is sent with 200. *)
Record response : Type := { rbody : body; status : N }.

(** [str(v)] *)
Definition py_str (R : Runtime) (v : pyval) : pystr :=
  match v with
  | VNone => py "None"
  | VBool true => py "True"
  | VBool false => py "False"
  | VInt z => str_of_Z z
  | VStr s | VMarkup s => s
  | VList _ | VDict _ => py_repr R v
  end.

(** [Markup(v)]: the text of [v], marked safe, with no escaping. *)
Definition Markup (R : Runtime) (v : pyval) : pyval := VMarkup (py_str R v).

(* ================================================================== *)
(** ** The view functions of [create_app] *)

Section Views.

Variable R : Runtime.
Variable config : Config.

(** The two [except] clauses of [index] and [pr_detail]: the error page,
    with status 500.  Rendering it is outside any [try]. *)
Definition html_except (e : exn) : prog response :=
  match e with
  | GitHubAPIError _ =>
      page <- lift (render_template R (py "error.html")
                [(py "error_title", TVal (VStr (py "GitHub 연결 오류")));
                 (py "error_message", TVal (VStr (str_exn e)));
                 (py "config", TConfig config)]) ;;
      Ret {| rbody := Html page; status := 500 |}
  | OtherException _ =>
      page <- lift (render_template R (py "error.html")
                [(py "error_title", TVal (VStr (py "오류 발생")));
                 (py "error_message",
                  TVal (VStr (py "예상치 못한 오류가 발생했습니다: "
                                ++ str_exn e)));
                 (py "config", TConfig config)]) ;;
      Ret {| rbody := Html page; status := 500 |}
  end.

(** The [try] block of [index]. *)
Definition index_try (state : pystr) : prog response :=
  repo <- call get_repo_info ;;
  owner <- lift (getitem repo (py "owner")) ;;
  name <- lift (getitem repo (py "name")) ;;
  prs <- call (get_my_pr_list state) ;;
  page <- lift (render_template R (py "index.html")
            [(py "prs", TVal prs);
             (py "owner", TVal owner);
             (py "name", TVal name);
             (py "state", TVal (VStr state));
             (py "config", TConfig config)]) ;;
  Ret {| rbody := Html page; status := 200 |}.

(** Route ["/"]. *)
Definition index (req : request) : prog response :=
  let state := multi_get (args req) (py "state") (DEFAULT_PR_STATE config) in
  try_except (index_try state) html_except.

(** The inner loop of [pr_detail], on one reply. *)
Definition wrap_reply (reply : pyval) : result pyval :=
  rbind (py_get reply (py "bodyHTML") VNone) (fun body =>
  if truthy body
  then setitem reply (py "bodyHTML") (Markup R body)
  else Ok reply).

(** The outer loop of [pr_detail], on one comment.  The dicts are changed
    in place by the source; here the changed dict takes the place of the
    old one, which is the same for data decoded from JSON, where no dict
    is reachable twice. *)
Definition wrap_comment (comment : pyval) : result pyval :=
  rbind (py_get comment (py "bodyHTML") VNone) (fun body =>
  rbind (setitem comment (py "bodyHTML_safe")
           (if truthy body then Markup R body else VMarkup [])) (fun c1 =>
  rbind (py_get c1 (py "replies") VNone) (fun replies =>
  if truthy replies
  then
    rbind (py_iter replies) (fun items =>
    rbind (for_each wrap_reply items) (fun items' =>
    match replies with
    | VList _ => setitem c1 (py "replies") (VList items')
    | _ => Ok c1
    end))
  else Ok c1))).

(** Lines 129 to 140 of [pr_detail]: what has become of [pr_data] when the
    template is rendered. *)
Definition wrap_bodies (pr_data : pyval) : result pyval :=
  rbind (py_get pr_data (py "comments") (VList [])) (fun comments =>
  if truthy comments
  then
    rbind (py_iter comments) (fun items =>
    rbind (for_each wrap_comment items) (fun items' =>
    match comments with
    | VList _ => setitem pr_data (py "comments") (VList items')
    | _ => Ok pr_data
    end))
  else Ok pr_data).

(** The [try] block of [pr_detail]. *)
Definition pr_detail_try (pr_number : N) (include_resolved compact_mode : bool)
  : prog response :=
  repo <- call get_repo_info ;;
  owner <- lift (getitem repo (py "owner")) ;;
  name <- lift (getitem repo (py "name")) ;;
  pr_data <- call (get_comments_for_pr owner name pr_number
                     include_resolved) ;;
  if negb (truthy pr_data)
  then
    page <- lift (render_template R (py "error.html")
              [(py "error_title", TVal (VStr (py "PR을 찾을 수 없습니다")));
               (py "error_message",
                TVal (VStr (py "PR #" ++ str_of_N pr_number
                              ++ py "을(를) 찾을 수 없습니다.")));
               (py "config", TConfig config)]) ;;
    Ret {| rbody := Html page; status := 404 |}
  else
    pr <- lift (wrap_bodies pr_data) ;;
    page <- lift (render_template R (py "pr_detail.html")
              [(py "pr", TVal pr);
               (py "owner", TVal owner);
               (py "name", TVal name);
               (py "include_resolved", TVal (VBool include_resolved));
               (py "compact_mode", TVal (VBool compact_mode));
               (py "config", TConfig config)]) ;;
    Ret {| rbody := Html page; status := 200 |}.

(** [request.args.get(key, "false").lower() == "true"] *)
Definition flag (req : request) (key : pystr) : bool :=
  pystr_eqb (lower (multi_get (args req) key (py "false"))) (py "true").

(** Route ["/pr/<int:pr_number>"]. *)
Definition pr_detail (pr_number : N) (req : request) : prog response :=
  let include_resolved := flag req (py "include_resolved") in
  let compact_mode := flag req (py "compact_mode") in
  try_except (pr_detail_try pr_number include_resolved compact_mode)
             html_except.

(** The two [except] clauses of [add_reply]. *)
Definition json_except (e : exn) : prog response :=
  match e with
  | GitHubAPIError _ =>
      Ret {| rbody := Json [(py "success", VBool false);
                            (py "error", VStr (str_exn e))];
             status := 500 |}
  | OtherException _ =>
      Ret {| rbody := Json [(py "success", VBool false);
                            (py "error",
                             VStr (py "예상치 못한 오류: " ++ str_exn e))];
             status := 500 |}
  end.

(** The [try] block of [add_reply]. *)
Definition add_reply_try (pr_number : N) (req : request) : prog response :=
  repo <- call get_repo_info ;;
  owner <- lift (getitem repo (py "owner")) ;;
  name <- lift (getitem repo (py "name")) ;;
  let comment_id := multi_get_none (form req) (py "comment_id") in
  let body := strip (multi_get (form req) (py "body") []) in
  if negb (truthy comment_id) || empty body
  then
    Ret {| rbody := Json [(py "success", VBool false);
                          (py "error",
                           VStr (py "comment_id와 body가 필요합니다."))];
           status := 400 |}
  else
    _ <- call (add_reply_to_comment owner name pr_number comment_id body) ;;
    Ret {| rbody := Json [(py "success", VBool true)]; status := 200 |}.

(** Route ["/pr/<int:pr_number>/reply"], POST. *)
Definition add_reply (pr_number : N) (req : request) : prog response :=
  try_except (add_reply_try pr_number req) json_except.

(** Route ["/health"]. *)
Definition health : prog response :=
  Ret {| rbody := Json [(py "status", VStr (py "ok"));
                        (py "service", VStr (py "code-review-checker"))];
         status := 200 |}.

End Views.

(* ================================================================== *)
(** ** [create_app]: the routes it registers *)

Inductive endpoint : Type := ep_index | ep_pr_detail | ep_add_reply | ep_health.

(** One entry of the URL map. *)
Record url_rule : Type := {
  rule : pystr;
  methods : list pystr;
  view : endpoint
}.

Record flask_app : Type := {
  url_map : list url_rule;
  jinja_filters : list pystr
}.

(** [@app.route(rule, methods=...)]: without [methods] a rule answers GET. *)
Definition route (r : pystr) (ms : option (list pystr)) (v : endpoint)
  (app : flask_app) : flask_app :=
  {| url_map :=
       url_map app
       ++ [{| rule := r;
              methods := match ms with Some l => l | None => [py "GET"] end;
              view := v |}];
     jinja_filters := jinja_filters app |}.

Definition add_filter (name : pystr) (app : flask_app) : flask_app :=
  {| url_map := url_map app; jinja_filters := jinja_filters app ++ [name] |}.

(** The registrations of [create_app], in the order of the source, on the
    object [fresh] that [Flask(__name__)] returned, with whatever the
    framework has put into it. *)
Definition create_app (fresh : flask_app) : flask_app :=
  route (py "/health") None ep_health
    (route (py "/pr/<int:pr_number>/reply") (Some [py "POST"]) ep_add_reply
       (route (py "/pr/<int:pr_number>") None ep_pr_detail
          (route (py "/") None ep_index
             (add_filter (py "format_time") fresh)))).

(** The rules [create_app] has added to those of [fresh]. *)
Definition registered (fresh : flask_app) : list url_rule :=
  skipn (List.length (url_map fresh)) (url_map (create_app fresh)).

(** A request that matched a rule, with the [pr_number] its URL carries: the
    [int] converter only lets a non-negative integer through. *)
Inductive matched : Type :=
  | at_index
  | at_pr_detail (pr_number : N)
  | at_add_reply (pr_number : N)
  | at_health.

Definition endpoint_of (m : matched) : endpoint :=
  match m with
  | at_index => ep_index
  | at_pr_detail _ => ep_pr_detail
  | at_add_reply _ => ep_add_reply
  | at_health => ep_health
  end.

(** The view function Flask runs for a matched request. *)
Definition handle (R : Runtime) (config : Config) (m : matched)
  (req : request) : prog response :=
  match m with
  | at_index => index R config req
  | at_pr_detail n => pr_detail R config n req
  | at_add_reply n => add_reply n req
  | at_health => health
  end.

(* ================================================================== *)
(** ** [format_time], the Jinja filter *)

(** A [datetime]: the microseconds its own wall clock shows since the start
    of year 1, and the UTC offset of its [tzinfo], if it has one. *)
Record datetime : Type := { wall : Z; tzinfo : option Z }.

(** A [timedelta], normalised as Python keeps it: [seconds] and
    [microseconds] are never negative, the sign is in [days]. *)
Record timedelta : Type := { days : Z; seconds : Z; microseconds : Z }.

Definition timedelta_of (us : Z) : timedelta :=
  {| days := us / 86400000000;
     seconds := (us mod 86400000000) / 1000000;
     microseconds := us mod 1000000 |}.

(** [a - b] for two datetimes of the same [tzinfo]. *)
Definition datetime_sub (a b : datetime) : timedelta :=
  timedelta_of (wall a - wall b).

(** What [format_time] takes from the standard library: the parser, which
    raises on what it cannot read, and the clock, read in a given zone. *)
Record Clock : Type := {
  fromisoformat : pystr -> result datetime;
  now : option Z -> datetime
}.

(** The [try] block of [format_time]. *)
Definition format_time_try (C : Clock) (timestamp : pystr) : result pystr :=
  rbind (fromisoformat C (replace_char 90 (py "+00:00") timestamp)) (fun dt =>
  let diff := datetime_sub (now C (tzinfo dt)) dt in
  if (days diff >? 365)%Z then
    Ok (str_of_Z (days diff / 365) ++ py "년 전")
  else if (days diff >? 30)%Z then
    Ok (str_of_Z (days diff / 30) ++ py "개월 전")
  else if (days diff >? 0)%Z then
    Ok (str_of_Z (days diff) ++ py "일 전")
  else if (seconds diff >? 3600)%Z then
    Ok (str_of_Z (seconds diff / 3600) ++ py "시간 전")
  else if (seconds diff >? 60)%Z then
    Ok (str_of_Z (seconds diff / 60) ++ py "분 전")
  else
    Ok (py "방금 전")).

(** [format_time(timestamp)] for a [str]; the bare [except] catches whatever
    the [try] block raises. *)
Definition format_time (C : Clock) (timestamp : pystr) : result pystr :=
  if empty timestamp then Ok []
  else
    match format_time_try C timestamp with
    | Ok s => Ok s
    | Err _ => Ok (prefix_slice 10 timestamp)
    end.

(* ================================================================== *)
(** ** Vocabulary of the properties *)

(** Modelled from the spec: [config.py] is not among the sources, so the
    value of [DEFAULT_PR_STATE] is taken from the spec, by which the
    application lets its user browse their open pull requests. *)
Definition spec_config : Config := {| DEFAULT_PR_STATE := py "open" |}.

(** The template of the error page renders whatever it is given. *)
Definition error_page_renders (R : Runtime) : Prop :=
  forall ctx, exists page, render_template R (py "error.html") ctx = Ok page.

(** The calls one request caused, and what came of the request. *)
Definition trace_of (o : oracle) (p : prog response) : list api_call :=
  snd (run o p []).

Definition result_of (o : oracle) (p : prog response) : outcome response :=
  fst (run o p []).

(** A handler that is a plain error response, with no call left in it. *)
Definition error_response (p : prog response) : Prop :=
  exists resp, p = Ret resp /\ status resp = 500%N.

(** The call discipline, read off the tree of a handler: no method among
    [used] is called, none is called twice, and once a call has raised the
    handler is an error response. *)
Inductive disciplined (used : list api_method) : prog response -> Prop :=
  | disc_ret : forall resp, disciplined used (Ret resp)
  | disc_raise : forall e, disciplined used (Raise e)
  | disc_call : forall c k,
      ~ In (method_of c) used ->
      (forall v, disciplined (method_of c :: used) (k (Ok v))) ->
      (forall e, error_response (k (Err e))) ->
      disciplined used (Call c k).

(** The [try] block of the view a request is matched to; [health] has none
    and is its own block. *)
Definition try_block (R : Runtime) (config : Config) (m : matched)
  (req : request) : prog response :=
  match m with
  | at_index =>
      index_try R config
        (multi_get (args req) (py "state") (DEFAULT_PR_STATE config))
  | at_pr_detail n =>
      pr_detail_try R config n (flag req (py "include_resolved"))
        (flag req (py "compact_mode"))
  | at_add_reply n => add_reply_try n req
  | at_health => health
  end.

(** A response that carries the message [msg]: as the [error_message] of a
    rendered error page, or as the [error] field of a JSON body, after the
    fixed words the handler may put in front of it. *)
Definition carries (R : Runtime) (config : Config) (resp : response)
  (msg : pystr) : Prop :=
  match rbody resp with
  | Html page =>
      exists title intro,
        render_template R (py "error.html")
          [(py "error_title", TVal (VStr title));
           (py "error_message", TVal (VStr (intro ++ msg)));
           (py "config", TConfig config)] = Ok page
  | Json d =>
      exists intro, lookup (py "error") d = Some (VStr (intro ++ msg))
  end.

(** The response body is a page that [render_template] produced. *)
Definition rendered_html (R : Runtime) (resp : response) : Prop :=
  exists page name ctx,
    rbody resp = Html page /\ render_template R name ctx = Ok page.

Definition json_body (resp : response) : Prop :=
  exists d, rbody resp = Json d.

(** The form of a reply request lacks a [comment_id] or a [body]. *)
Definition incomplete_form (req : request) : Prop :=
  truthy (multi_get_none (form req) (py "comment_id")) = false
  \/ strip (multi_get (form req) (py "body") []) = [].

(** The answer is status 400 with [success] false. *)
Definition rejected (out : outcome response) : Prop :=
  exists d, out = Returned {| rbody := Json d; status := 400 |}
            /\ lookup (py "success") d = Some (VBool false).

(** [get_repo_info] answered with a repository that has an owner and a
    name. *)
Definition repo_known (o : oracle) (owner name : pyval) : Prop :=
  exists repo,
    o [] get_repo_info = Ok repo
    /\ getitem repo (py "owner") = Ok owner
    /\ getitem repo (py "name") = Ok name.

(** Two dicts agree on every key outside [ks]. *)
Definition same_except (ks : list pystr) (d d' : list (pystr * pyval))
  : Prop :=
  forall k, ~ In k ks -> lookup k d' = lookup k d.

(** What [pr_detail] may do to a reply: only [bodyHTML] changes, into markup,
    and only where [wraps] holds of it. *)
Definition reply_rel (wraps : pyval -> bool) (R : Runtime) (r r' : pyval)
  : Prop :=
  exists d d',
    r = VDict d /\ r' = VDict d'
    /\ same_except [py "bodyHTML"] d d'
    /\ lookup (py "bodyHTML") d' =
       match lookup (py "bodyHTML") d with
       | Some b => Some (if wraps b then Markup R b else b)
       | None => None
       end.

(** What [pr_detail] may do to a comment: [bodyHTML_safe] is set, the
    replies change as replies may, the rest is kept. *)
Definition comment_rel (wraps : pyval -> bool) (R : Runtime) (c c' : pyval)
  : Prop :=
  exists d d',
    c = VDict d /\ c' = VDict d'
    /\ same_except [py "bodyHTML_safe"; py "replies"] d d'
    /\ lookup (py "bodyHTML_safe") d' =
       Some (match lookup (py "bodyHTML") d with
             | Some b => if truthy b then Markup R b else VMarkup []
             | None => VMarkup []
             end)
    /\ match lookup (py "replies") d with
       | Some (VList rs) =>
           exists rs', lookup (py "replies") d' = Some (VList rs')
                       /\ Forall2 (reply_rel wraps R) rs rs'
       | other => lookup (py "replies") d' = other
       end.

(** What [pr_detail] may do to the fetched PR data. *)
Definition pr_rel (wraps : pyval -> bool) (R : Runtime) (pr pr' : pyval)
  : Prop :=
  exists d d',
    pr = VDict d /\ pr' = VDict d'
    /\ same_except [py "comments"] d d'
    /\ match lookup (py "comments") d with
       | Some (VList cs) =>
           exists cs', lookup (py "comments") d' = Some (VList cs')
                       /\ Forall2 (comment_rel wraps R) cs cs'
       | other => lookup (py "comments") d' = other
       end.

(** PR data of the expected shape: a dict whose [comments], if any, is a
    list of dicts whose [replies], if any, is a list of dicts. *)
Definition is_dict (v : pyval) : bool :=
  match v with VDict _ => true | _ => false end.

Definition list_of (ok : pyval -> bool) (v : option pyval) : bool :=
  match v with
  | None => true
  | Some (VList l) => forallb ok l
  | Some x => negb (truthy x)
  end.

Definition comment_shaped (c : pyval) : bool :=
  match c with
  | VDict d => list_of is_dict (lookup (py "replies") d)
  | _ => false
  end.

Definition pr_shaped (pr : pyval) : bool :=
  match pr with
  | VDict d => list_of comment_shaped (lookup (py "comments") d)
  | _ => false
  end.

(** A property of every response a handler can end in. *)
Inductive leaves (P : response -> Prop) : prog response -> Prop :=
  | leaves_ret : forall resp, P resp -> leaves P (Ret resp)
  | leaves_raise : forall e, leaves P (Raise e)
  | leaves_call : forall c k,
      (forall a, leaves P (k a)) -> leaves P (Call c k).

(** [d.get(k)], read off the items of the dict. *)
Definition or_none (v : option pyval) : pyval :=
  match v with Some x => x | None => VNone end.

(** *** Three sentences of the spec, as they are worded *)

(** Every route that calls the GitHub client answers with a rendered
    template. *)
Definition html_of_every_api_route_as_stated (R : Runtime) (config : Config)
  (o : oracle) (m : matched) (req : request) : Prop :=
  trace_of o (handle R config m req) <> [] ->
  exists resp,
    result_of o (handle R config m req) = Returned resp
    /\ rendered_html R resp.

(** The reply route answers 400 exactly when the form is incomplete. *)
Definition reply_rejection_as_stated (o : oracle) (n : N) (req : request)
  : Prop :=
  rejected (result_of o (add_reply n req)) <-> incomplete_form req.

(** The [bodyHTML] of a reply is wrapped as markup whenever it is present. *)
Definition only_bodies_wrapped_as_stated (R : Runtime) (pr : pyval) : Prop :=
  forall pr', wrap_bodies R pr = Ok pr' -> pr_rel (fun _ => true) R pr pr'.

(** *** Sample surroundings, on which the statements below are tried *)

(** A runtime whose pages are the name of the template, followed by the
    error message when the context has one. *)
Definition demo_runtime : Runtime :=
  {| render_template := fun name ctx =>
       match lookup (py "error_message") ctx with
       | Some (TVal (VStr m)) => Ok (name ++ py ": " ++ m)
       | _ => Ok name
       end;
     py_repr := fun _ => py "[...]" |}.

Definition demo_pr : pyval :=
  VDict [(py "title", VStr (py "Fix the parser"));
         (py "comments",
          VList [VDict [(py "id", VStr (py "c1"));
                        (py "bodyHTML", VStr (py "<p>why?</p>"));
                        (py "replies",
                         VList [VDict [(py "author", VStr (py "octo"));
                                       (py "bodyHTML", VStr [])];
                                VDict [(py "bodyHTML",
                                        VStr (py "<b>done</b>"))]])]])].

(** A PR with one comment, whose one reply has an empty [bodyHTML]. *)
Definition pr_with_empty_reply : pyval :=
  VDict [(py "comments",
          VList [VDict [(py "replies",
                         VList [VDict [(py "bodyHTML", VStr [])]])]])].

(** A client that answers every call. *)
Definition github_up : oracle := fun _ c =>
  match c with
  | get_repo_info =>
      Ok (VDict [(py "owner", VStr (py "octo")); (py "name", VStr (py "app"))])
  | get_my_pr_list _ => Ok (VList [])
  | get_comments_for_pr _ _ _ _ => Ok demo_pr
  | add_reply_to_comment _ _ _ _ _ => Ok VNone
  end.

(** A client none of whose calls gets through. *)
Definition github_down : oracle := fun _ _ =>
  Err (GitHubAPIError (py "gh: not logged in")).

(** A client that knows the repository and finds no data for any PR. *)
Definition github_no_pr : oracle := fun _ c =>
  match c with
  | get_comments_for_pr _ _ _ _ => Ok VNone
  | _ => github_up [] c
  end.

Definition plain_request : request := {| args := []; form := [] |}.

Definition reply_request : request :=
  {| args := [];
     form := [(py "comment_id", py "c1"); (py "body", py "  thanks  ")] |}.

(** A clock that reads 400 days and 5 microseconds after the one timestamp
    its parser accepts. *)
Definition demo_clock : Clock :=
  {| fromisoformat := fun s =>
       if pystr_eqb s (py "2024-01-01T00:00:00+00:00")
       then Ok {| wall := 0; tzinfo := Some 0%Z |}
       else Err (OtherException (py "Invalid isoformat string"));
     now := fun tz => {| wall := 86400000000 * 400 + 5; tzinfo := tz |} |}.

(** *** Vocabulary of the further properties *)

(** The methods of the GitHub client a view has a use for. *)
Definition methods_of_view (m : matched) : list api_method :=
  match m with
  | at_index => [m_get_repo_info; m_get_my_pr_list]
  | at_pr_detail _ => [m_get_repo_info; m_get_comments_for_pr]
  | at_add_reply _ => [m_get_repo_info; m_add_reply_to_comment]
  | at_health => []
  end.

(** Every call in the tree of a handler is of a method in [allowed]. *)
Inductive calls_only (allowed : list api_method) : prog response -> Prop :=
  | only_ret : forall resp, calls_only allowed (Ret resp)
  | only_raise : forall e, calls_only allowed (Raise e)
  | only_call : forall c k,
      In (method_of c) allowed ->
      (forall a, calls_only allowed (k a)) ->
      calls_only allowed (Call c k).

(** The status codes a view answers with. *)
Definition statuses_of_view (m : matched) : list N :=
  match m with
  | at_index => [200; 500]
  | at_pr_detail _ => [200; 404; 500]
  | at_add_reply _ => [200; 400; 500]
  | at_health => [200]
  end%N.

(** A text with something in it and no white space at either end. *)
Definition trimmed (s : pystr) : Prop :=
  s <> []
  /\ (forall c t, s = c :: t -> isspace c = false)
  /\ (forall c t, s = t ++ [c] -> isspace c = false).

(** The texts [format_time] has for an age, with the range of the number
    each of them shows. *)
Inductive age_text : pystr -> Prop :=
  | age_years : forall n, (1 <= n)%Z ->
      age_text (str_of_Z n ++ py "년 전")
  | age_months : forall n, (1 <= n <= 12)%Z ->
      age_text (str_of_Z n ++ py "개월 전")
  | age_days : forall n, (1 <= n <= 30)%Z ->
      age_text (str_of_Z n ++ py "일 전")
  | age_hours : forall n, (1 <= n <= 23)%Z ->
      age_text (str_of_Z n ++ py "시간 전")
  | age_minutes : forall n, (1 <= n <= 60)%Z ->
      age_text (str_of_Z n ++ py "분 전")
  | age_just_now : age_text (py "방금 전").

(** The keyword arguments [index] renders its page with. *)
Definition index_context (config : Config) (prs owner name : pyval)
  (state : pystr) : context :=
  [(py "prs", TVal prs);
   (py "owner", TVal owner);
   (py "name", TVal name);
   (py "state", TVal (VStr state));
   (py "config", TConfig config)].

(* ================================================================== *)
(** ** Lemmas on strings and dicts *)

Lemma pystr_eqb_eq (a b : pystr) : pystr_eqb a b = true <-> a = b.
Proof.
  revert b; induction a as [|x a IH]; intros [|y b]; simpl;
    try (split; [discriminate | congruence]); try tauto.
  rewrite andb_true_iff, N.eqb_eq, IH.
  split; [intros [-> ->]; reflexivity | intros H; inversion H; auto].
Qed.

Lemma pystr_eqb_refl (a : pystr) : pystr_eqb a a = true.
Proof. apply pystr_eqb_eq; reflexivity. Qed.

Lemma pystr_eqb_neq (a b : pystr) : a <> b -> pystr_eqb a b = false.
Proof.
  intros H; destruct (pystr_eqb a b) eqn:E; [|reflexivity].
  apply pystr_eqb_eq in E; contradiction.
Qed.

Lemma lookup_store_same (k : pystr) (v : pyval) d :
  lookup k (store k v d) = Some v.
Proof.
  induction d as [|[k' v'] d IH]; simpl.
  - now rewrite pystr_eqb_refl.
  - destruct (pystr_eqb k k') eqn:E; simpl.
    + now rewrite pystr_eqb_refl.
    + now rewrite E.
Qed.

Lemma lookup_store_other (k k' : pystr) (v : pyval) d :
  k' <> k -> lookup k' (store k v d) = lookup k' d.
Proof.
  intros Hk; induction d as [|[k0 v0] d IH]; simpl.
  - now rewrite (pystr_eqb_neq Hk).
  - destruct (pystr_eqb k k0) eqn:E; simpl.
    + apply pystr_eqb_eq in E; subst k0.
      now rewrite (pystr_eqb_neq Hk).
    + destruct (pystr_eqb k' k0); auto.
Qed.

(* ================================================================== *)
(** ** Lemmas on running a handler *)

Arguments py : simpl never.

Lemma run_bind (A B : Type) (o : oracle) (p : prog A) (f : A -> prog B) :
  forall hist,
    run o (bind p f) hist =
    match run o p hist with
    | (Returned a, h) => run o (f a) h
    | (Propagated e, h) => (Propagated e, h)
    end.
Proof.
  induction p as [a|e|c k IH]; intros hist; simpl; auto.
Qed.

Lemma run_try_except (A : Type) (o : oracle) (p : prog A)
  (h : exn -> prog A) :
  forall hist,
    run o (try_except p h) hist =
    match run o p hist with
    | (Returned a, h') => (Returned a, h')
    | (Propagated e, h') => run o (h e) h'
    end.
Proof.
  induction p as [a|e|c k IH]; intros hist; simpl; auto.
Qed.

(** The log only grows. *)
Lemma run_extends (A : Type) (o : oracle) (p : prog A) :
  forall hist, exists ext, snd (run o p hist) = hist ++ ext.
Proof.
  induction p as [a|e|c k IH]; intros hist; simpl.
  - exists []; now rewrite app_nil_r.
  - exists []; now rewrite app_nil_r.
  - destruct (IH (o hist c) (hist ++ [c])) as [ext Hext].
    exists (c :: ext). rewrite Hext, <- app_assoc. reflexivity.
Qed.

(** What the discipline of the tree gives on every run: the calls added to
    the log are of distinct methods, none of them in [used], and a call that
    raised is the last one, answered by an error response. *)
Lemma disciplined_run (o : oracle) (used : list api_method)
  (p : prog response) :
  disciplined used p ->
  forall hist, exists ext,
    snd (run o p hist) = hist ++ ext
    /\ NoDup (map method_of ext)
    /\ (forall c, In c ext -> ~ In (method_of c) used)
    /\ (forall pre c post e,
          ext = pre ++ c :: post -> o (hist ++ pre) c = Err e ->
          post = []
          /\ exists resp, fst (run o p hist) = Returned resp
                          /\ status resp = 500%N).
Proof.
  induction 1 as [used resp|used e|used c k Hfresh Hok IH Herr];
    intros hist.
  - exists []; simpl; rewrite app_nil_r.
    split; [reflexivity|]. split; [constructor|]. split; [intros ? []|].
    intros [|? ?] ? ? ? ?; discriminate.
  - exists []; simpl; rewrite app_nil_r.
    split; [reflexivity|]. split; [constructor|]. split; [intros ? []|].
    intros [|? ?] ? ? ? ?; discriminate.
  - simpl. destruct (o hist c) as [v|e] eqn:Ans.
    + destruct (IH v (hist ++ [c])) as (ext & Hlog & Hnd & Hout & Hlast).
      exists (c :: ext). split; [|split; [|split]].
      * rewrite Hlog, <- app_assoc; reflexivity.
      * simpl; constructor; auto.
        intros Hin. apply in_map_iff in Hin as (c' & Hm & Hc').
        apply (Hout c' Hc'). left; auto.
      * intros c' [<-|Hc']; auto.
        intros Hu. apply (Hout c' Hc'). right; auto.
      * intros [|c0 pre] c' post e Heq Hraise; simpl in Heq;
          inversion Heq; subst.
        -- rewrite app_nil_r in Hraise. congruence.
        -- apply (Hlast pre c' post e); auto.
           rewrite <- app_assoc; exact Hraise.
    + destruct (Herr e) as (resp & Hk & Hst). rewrite Hk; simpl.
      exists [c]. split; [reflexivity|]. split; [|split].
      * simpl; constructor; [intros []|constructor].
      * intros c' [<-|[]]; auto.
      * intros [|c0 pre] c' post e' Heq _; simpl in Heq; inversion Heq.
        -- split; auto. exists resp; auto.
        -- destruct pre; discriminate.
Qed.

(** The [except] clauses make no call. *)
Lemma html_except_quiet (R : Runtime) (config : Config) used e :
  disciplined used (html_except R config e).
Proof.
  destruct e; unfold html_except;
    match goal with
    | |- context [render_template ?r ?n ?c] =>
        destruct (render_template r n c)
    end; simpl; constructor.
Qed.

Lemma html_except_responds (R : Runtime) (config : Config) e :
  error_page_renders R ->
  exists page,
    html_except R config e = Ret {| rbody := Html page; status := 500 |}.
Proof.
  intros Hpage; destruct e; unfold html_except;
    match goal with
    | |- context [render_template ?r ?n ?c] =>
        destruct (Hpage c) as [page ->]
    end; simpl; eauto.
Qed.

Lemma json_except_responds e :
  exists d, json_except e = Ret {| rbody := Json d; status := 500 |}.
Proof. destruct e; simpl; eauto. Qed.

Lemma json_except_quiet used e : disciplined used (json_except e).
Proof. destruct e; simpl; constructor. Qed.

(** Walks the tree of a view function, one call or local step at a time. *)
Ltac walk Hpage :=
  repeat first
    [ apply disc_ret
    | apply disc_raise
    | apply html_except_quiet
    | apply json_except_quiet
    | match goal with
      | |- error_response (html_except ?R ?cfg ?e) =>
          destruct (html_except_responds cfg e Hpage) as [? ->];
          eexists; split; reflexivity
      | |- error_response (json_except ?e) =>
          destruct (json_except_responds e) as [? ->];
          eexists; split; reflexivity
      | |- disciplined _ (Call _ _) =>
          apply disc_call;
          [ simpl; intuition discriminate | intros ?; cbn | intros ?; cbn ]
      | |- disciplined _ (try_except (if ?b then _ else _) _) =>
          destruct b; cbn
      | |- disciplined _ (try_except (bind (lift ?r) _) _) =>
          destruct r; cbn
      end ].

Lemma handle_disciplined (R : Runtime) (config : Config) (m : matched)
  (req : request) :
  error_page_renders R -> disciplined [] (handle R config m req).
Proof.
  intros Hpage. destruct m; cbn.
  - unfold index, index_try; cbn. walk Hpage.
  - unfold pr_detail, pr_detail_try; cbn. walk Hpage.
  - unfold add_reply, add_reply_try; cbn. walk Hpage.
  - walk Hpage.
Qed.

Lemma demo_page_renders : error_page_renders demo_runtime.
Proof.
  intros ctx. unfold demo_runtime; simpl.
  destruct (lookup (py "error_message") ctx) as [[[]|]|]; eauto.
Qed.

Lemma html_except_log (R : Runtime) (config : Config) (o : oracle) e h :
  snd (run o (html_except R config e) h) = h.
Proof.
  destruct e; unfold html_except;
    match goal with
    | |- context [render_template ?r ?n ?c] =>
        destruct (render_template r n c)
    end; reflexivity.
Qed.

(** The error page of an [except] clause: status 500, a rendered template,
    and the message of the exception in it. *)
Lemma html_except_answer (R : Runtime) (config : Config) e :
  error_page_renders R ->
  exists resp,
    html_except R config e = Ret resp
    /\ status resp = 500%N
    /\ rendered_html R resp
    /\ carries R config resp (str_exn e).
Proof.
  intros Hpage; destruct e as [msg|msg]; unfold html_except;
    match goal with
    | |- context [render_template ?r ?n ?c] =>
        destruct (Hpage c) as [page Hrender]; rewrite Hrender
    end; simpl;
    (eexists; split; [reflexivity|]; split; [reflexivity|]; split;
     [ unfold rendered_html; simpl; eauto
     | unfold carries; simpl ]).
  - exists (py "GitHub 연결 오류"), []. exact Hrender.
  - exists (py "오류 발생"), (py "예상치 못한 오류가 발생했습니다: ").
    exact Hrender.
Qed.

Lemma json_except_answer (R : Runtime) (config : Config) e :
  exists resp,
    json_except e = Ret resp
    /\ status resp = 500%N
    /\ json_body resp
    /\ carries R config resp (str_exn e).
Proof.
  destruct e as [msg|msg]; simpl;
    (eexists; split; [reflexivity|]; split; [reflexivity|]; split;
     [ unfold json_body; simpl; eauto | unfold carries; simpl ]).
  - exists []. reflexivity.
  - exists (py "예상치 못한 오류: "). reflexivity.
Qed.

Lemma json_except_status (o : oracle) e h :
  exists d, run o (json_except e) h
            = (Returned {| rbody := Json d; status := 500 |}, h).
Proof. destruct e; simpl; eauto. Qed.

(** Every view but [health] is its [try] block under its [except] clauses. *)
Lemma handle_try_block (R : Runtime) (config : Config) (m : matched)
  (req : request) :
  handle R config m req =
  match m with
  | at_index | at_pr_detail _ =>
      try_except (try_block R config m req) (html_except R config)
  | at_add_reply _ => try_except (try_block R config m req) json_except
  | at_health => try_block R config m req
  end.
Proof. destruct m; reflexivity. Qed.

Lemma handle_returns
  (R : Runtime) (config : Config) (o : oracle) (m : matched) (req : request) :
  error_page_renders R ->
  exists resp h, run o (handle R config m req) [] = (Returned resp, h).
Proof.
  intros Hpage. rewrite handle_try_block.
  destruct m; try rewrite run_try_except;
    destruct (run o (try_block R config _ req) []) as [[resp|e] h] eqn:Hrun;
    simpl; eauto.
  - destruct (html_except_answer config e Hpage) as (resp & -> & _);
      simpl; eauto.
  - destruct (html_except_answer config e Hpage) as (resp & -> & _);
      simpl; eauto.
  - destruct (json_except_answer R config e) as (resp & -> & _);
      simpl; eauto.
  - discriminate Hrun.
Qed.

(** Runs a view function against an arbitrary remote side, one answer at a
    time. *)
Ltac crunch :=
  repeat (cbn;
          match goal with
          | |- context [run _ (try_except (bind (lift ?r) _) _) _] =>
              destruct r eqn:?
          | |- context [run _ (try_except
                                 (bind (match ?r with
                                        | Ok _ => _
                                        | Err _ => _
                                        end) _) _) _] =>
              destruct r eqn:?
          | |- context [run _ (try_except (if ?b then _ else _) _) _] =>
              destruct b eqn:?
          | |- context [snd (run _ (html_except _ _ _) _)] =>
              rewrite html_except_log
          end).

Lemma leaves_run (P : response -> Prop) (o : oracle) (p : prog response) :
  leaves P p ->
  forall hist resp h, run o p hist = (Returned resp, h) -> P resp.
Proof.
  induction 1 as [resp HP|e|c k _ IH]; intros hist r h Hrun; simpl in Hrun.
  - inversion Hrun; subst; exact HP.
  - discriminate Hrun.
  - exact (IH _ _ _ _ Hrun).
Qed.

Lemma leaves_try_except (P : response -> Prop) (p : prog response)
  (h : exn -> prog response) :
  leaves P p -> (forall e, leaves P (h e)) -> leaves P (try_except p h).
Proof.
  intros Hp Hh; induction Hp as [resp HP|e|c k _ IH]; simpl.
  - constructor; exact HP.
  - apply Hh.
  - constructor; exact IH.
Qed.

Ltac walk_leaves :=
  repeat
    match goal with
    | |- leaves _ (Ret _) => apply leaves_ret
    | |- leaves _ (Raise _) => apply leaves_raise
    | |- leaves _ (Call _ _) => apply leaves_call; intros [?|?]; cbn
    | |- leaves _ (bind (lift ?r) _) => destruct r eqn:?; cbn
    | |- leaves _ (if ?b then _ else _) => destruct b eqn:?; cbn
    | |- rendered_html _ _ =>
        unfold rendered_html; simpl;
        do 3 eexists; split; [reflexivity|eassumption]
    | |- json_body _ => unfold json_body; simpl; eauto
    end.

Lemma html_except_leaves (R : Runtime) (config : Config) e :
  leaves (rendered_html R) (html_except R config e).
Proof. destruct e; unfold html_except; walk_leaves. Qed.

Lemma json_except_leaves e : leaves json_body (json_except e).
Proof. destruct e; unfold json_except; walk_leaves. Qed.

(** The two pages render a template whatever happens; the reply route and
    the health check answer in JSON. *)
Lemma handle_leaves (R : Runtime) (config : Config) (m : matched)
  (req : request) :
  leaves (fun resp =>
            match endpoint_of m with
            | ep_index | ep_pr_detail => rendered_html R resp
            | ep_add_reply | ep_health => json_body resp
            end)
         (handle R config m req).
Proof.
  destruct m; simpl.
  - apply leaves_try_except; [|apply html_except_leaves].
    unfold index_try; cbn. walk_leaves.
  - apply leaves_try_except; [|apply html_except_leaves].
    unfold pr_detail_try; cbn. walk_leaves.
  - apply leaves_try_except; [|apply json_except_leaves].
    unfold add_reply_try; cbn. walk_leaves.
  - unfold health. walk_leaves.
Qed.

(* ================================================================== *)
(** ** Lemmas on the reply form and on the wrapping of bodies *)

Lemma truthy_comment_id (req : request) (cid : pystr) :
  lookup (py "comment_id") (form req) = Some cid -> cid <> [] ->
  multi_get_none (form req) (py "comment_id") = VStr cid
  /\ truthy (VStr cid) = true.
Proof.
  intros Hcid Hne. unfold multi_get_none. rewrite Hcid.
  split; [reflexivity|]. destruct cid; [contradiction|reflexivity].
Qed.

Lemma empty_false (s : pystr) : s <> [] -> empty s = false.
Proof. destruct s; [contradiction|reflexivity]. Qed.

Lemma incomplete_form_check (req : request) :
  incomplete_form req <->
  negb (truthy (multi_get_none (form req) (py "comment_id")))
  || empty (strip (multi_get (form req) (py "body") [])) = true.
Proof.
  unfold incomplete_form. rewrite orb_true_iff, negb_true_iff.
  destruct (strip (multi_get (form req) (py "body") [])); simpl;
    intuition discriminate.
Qed.

Lemma key_bodyHTML_safe_replies : py "replies" <> py "bodyHTML_safe".
Proof. intros H; vm_compute in H; discriminate H. Qed.

Lemma for_each_Forall2 (A B : Type) (f : A -> result B) (P : A -> B -> Prop) :
  (forall a b, f a = Ok b -> P a b) ->
  forall l l', for_each f l = Ok l' -> Forall2 P l l'.
Proof.
  intros Hf; induction l as [|a l IH]; intros l' Hl; simpl in Hl.
  - inversion Hl; constructor.
  - destruct (f a) as [b|e] eqn:Ha; [|discriminate Hl].
    destruct (for_each f l) as [bs|e]; [|discriminate Hl].
    inversion Hl; subst. constructor; auto.
Qed.

Lemma for_each_total (A B : Type) (f : A -> result B) (ok : A -> bool) :
  (forall a, ok a = true -> exists b, f a = Ok b) ->
  forall l, forallb ok l = true -> exists l', for_each f l = Ok l'.
Proof.
  intros Hf; induction l as [|a l IH]; simpl; intros Hl.
  - eauto.
  - apply andb_true_iff in Hl as [Ha Hl].
    destruct (Hf a Ha) as [b ->]. destruct (IH Hl) as [bs ->]. eauto.
Qed.

Lemma same_except_refl ks d : same_except ks d d.
Proof. intros k _; reflexivity. Qed.

Lemma same_except_store ks k v d :
  In k ks -> same_except ks d (store k v d).
Proof.
  intros Hk k' Hk'. apply lookup_store_other. intros ->; contradiction.
Qed.

Lemma wrap_reply_rel (R : Runtime) (r r' : pyval) :
  wrap_reply R r = Ok r' -> reply_rel truthy R r r'.
Proof.
  unfold wrap_reply. destruct r as [| | | | | |d]; try discriminate.
  simpl. intros H. exists d.
  destruct (lookup (py "bodyHTML") d) as [b|] eqn:Hb; simpl in H.
  - destruct (truthy b) eqn:Ht; inversion H; subst.
    + eexists; repeat split.
      * apply same_except_store; simpl; auto.
      * apply lookup_store_same.
    + exists d; repeat split; auto using same_except_refl.
  - inversion H; subst. exists d; repeat split; auto using same_except_refl.
Qed.

Lemma wrap_reply_total (R : Runtime) (r : pyval) :
  is_dict r = true -> exists r', wrap_reply R r = Ok r'.
Proof.
  destruct r; try discriminate. intros _. unfold wrap_reply; simpl.
  destruct (lookup (py "bodyHTML") d) as [b|]; simpl; eauto.
  destruct (truthy b); eauto.
Qed.

Lemma iter_truthy (v : pyval) (items : list pyval) :
  truthy v = true -> py_iter v = Ok items ->
  v = VList items \/ exists s rest, items = VStr s :: rest.
Proof.
  destruct v as [| | |s|s|l|d]; simpl; intros Ht Hi;
    try discriminate; inversion Hi; subst; auto; right.
  - destruct s; [discriminate|simpl; eauto].
  - destruct s; [discriminate|simpl; eauto].
  - destruct d as [|[k x] d]; [discriminate|simpl; eauto].
Qed.

(** A loop whose body only accepts dicts went over a list. *)
Lemma loop_over_list (f : pyval -> result pyval) (v : pyval) items items' :
  (forall s, f (VStr s) = Err (OtherException
     (py "'" ++ py "str" ++ py "' object has no attribute 'get'"))) ->
  truthy v = true -> py_iter v = Ok items -> for_each f items = Ok items' ->
  v = VList items.
Proof.
  intros Hstr Ht Hi Hf.
  destruct (iter_truthy v Ht Hi) as [|(s & rest & ->)]; auto.
  simpl in Hf. rewrite Hstr in Hf. discriminate Hf.
Qed.

Lemma wrap_comment_dict (R : Runtime) (d : list (pystr * pyval)) :
  wrap_comment R (VDict d) =
  let body := or_none (lookup (py "bodyHTML") d) in
  let d1 := store (py "bodyHTML_safe")
              (if truthy body then Markup R body else VMarkup []) d in
  let replies := or_none (lookup (py "replies") d) in
  if truthy replies
  then
    rbind (py_iter replies) (fun items =>
    rbind (for_each (wrap_reply R) items) (fun items' =>
    match replies with
    | VList _ => Ok (VDict (store (py "replies") (VList items') d1))
    | _ => Ok (VDict d1)
    end))
  else Ok (VDict d1).
Proof.
  unfold wrap_comment, py_get at 1, or_none.
  destruct (lookup (py "bodyHTML") d) as [b|]; simpl;
    rewrite (lookup_store_other _ _ key_bodyHTML_safe_replies);
    destruct (lookup (py "replies") d) as [r|]; simpl; try reflexivity;
    destruct (truthy r); try reflexivity;
    destruct (py_iter r); simpl; try reflexivity;
    destruct (for_each (wrap_reply R) a); simpl; try reflexivity;
    destruct r; reflexivity.
Qed.

Lemma wrap_reply_str (R : Runtime) s :
  wrap_reply R (VStr s) =
  Err (OtherException
         (py "'" ++ py "str" ++ py "' object has no attribute 'get'")).
Proof. reflexivity. Qed.

Lemma wrap_comment_rel (R : Runtime) (c c' : pyval) :
  wrap_comment R c = Ok c' -> comment_rel truthy R c c'.
Proof.
  destruct c as [| | | | | |d]; try discriminate.
  rewrite wrap_comment_dict. cbv zeta.
  set (safe := if truthy (or_none (lookup (py "bodyHTML") d))
               then Markup R (or_none (lookup (py "bodyHTML") d))
               else VMarkup []).
  assert (Hsafe : safe = match lookup (py "bodyHTML") d with
                         | Some b => if truthy b then Markup R b else VMarkup []
                         | None => VMarkup []
                         end).
  { unfold safe; destruct (lookup (py "bodyHTML") d); reflexivity. }
  intros H. exists d.
  destruct (truthy (or_none (lookup (py "replies") d))) eqn:Ht.
  - destruct (py_iter _) as [items|] eqn:Hi; simpl in H; [|discriminate H].
    destruct (for_each (wrap_reply R) items) as [items'|] eqn:Hf;
      simpl in H; [|discriminate H].
    pose proof (loop_over_list _ _ (wrap_reply_str R) Ht Hi Hf) as Hl.
    rewrite Hl in H. inversion H; subst c'. clear H.
    destruct (lookup (py "replies") d) as [r|] eqn:Hr; simpl in Hl;
      [subst r|discriminate Hl].
    eexists; split; [reflexivity|]; split; [reflexivity|].
    split; [|split].
    + intros k Hk. rewrite lookup_store_other, lookup_store_other; auto;
        intros ->; apply Hk; simpl; auto.
    + rewrite lookup_store_other by (apply not_eq_sym, key_bodyHTML_safe_replies).
      rewrite lookup_store_same, Hsafe. reflexivity.
    + exists items'. split; [apply lookup_store_same|].
      eapply for_each_Forall2; [|exact Hf]. apply wrap_reply_rel.
  - inversion H; subst c'. clear H.
    eexists; split; [reflexivity|]; split; [reflexivity|].
    split; [|split].
    + apply same_except_store; simpl; auto.
    + rewrite lookup_store_same, Hsafe. reflexivity.
    + rewrite (lookup_store_other _ _ key_bodyHTML_safe_replies).
      destruct (lookup (py "replies") d) as [[| | | | |l|]|] eqn:Hr; auto.
      destruct l; [|discriminate Ht].
      exists []. split; [reflexivity|constructor].
Qed.

Lemma wrap_comment_str (R : Runtime) s :
  wrap_comment R (VStr s) =
  Err (OtherException
         (py "'" ++ py "str" ++ py "' object has no attribute 'get'")).
Proof. reflexivity. Qed.

(** A loop over a well-shaped optional list goes through. *)
Lemma loop_total (f : pyval -> result pyval) (ok : pyval -> bool)
  (v : option pyval) (default : pyval) :
  (forall a, ok a = true -> exists b, f a = Ok b) ->
  list_of ok v = true ->
  truthy default = false ->
  let x := match v with Some x => x | None => default end in
  truthy x = false
  \/ exists items items',
       x = VList items /\ py_iter x = Ok items
       /\ for_each f items = Ok items'.
Proof.
  intros Hf Hv Hd. destruct v as [x|]; simpl in *; auto.
  destruct x as [|b|z|s|s|l|d]; simpl in *;
    try (apply negb_true_iff in Hv); auto.
  right. destruct (for_each_total f ok Hf l Hv) as [items' Hitems].
  eauto.
Qed.

Lemma wrap_comment_total (R : Runtime) (c : pyval) :
  comment_shaped c = true -> exists c', wrap_comment R c = Ok c'.
Proof.
  destruct c as [| | | | | |d]; try discriminate. simpl; intros Hc.
  rewrite wrap_comment_dict. cbv zeta. unfold or_none.
  destruct (loop_total (wrap_reply R) is_dict (lookup (py "replies") d) VNone
              (wrap_reply_total R) Hc eq_refl)
    as [Hfalsy|(items & items' & Hx & Hi & Hf)].
  - rewrite Hfalsy. eauto.
  - rewrite Hx in *. destruct (truthy (VList items)); eauto.
    rewrite Hi; simpl. rewrite Hf; simpl. eauto.
Qed.

Lemma wrap_bodies_rel (R : Runtime) (pr pr' : pyval) :
  wrap_bodies R pr = Ok pr' -> pr_rel truthy R pr pr'.
Proof.
  destruct pr as [| | | | | |d]; try discriminate.
  unfold wrap_bodies, py_get. intros H. exists d.
  destruct (lookup (py "comments") d) as [comments|] eqn:Hc; simpl in H.
  - destruct (truthy comments) eqn:Ht.
    + destruct (py_iter comments) as [items|] eqn:Hi; simpl in H;
        [|discriminate H].
      destruct (for_each (wrap_comment R) items) as [items'|] eqn:Hf;
        simpl in H; [|discriminate H].
      pose proof (loop_over_list _ _ (wrap_comment_str R) Ht Hi Hf) as Hl.
      subst comments. simpl in H. inversion H; subst pr'. clear H.
      eexists; split; [reflexivity|]; split; [reflexivity|]. split.
      * apply same_except_store; simpl; auto.
      * exists items'. split; [apply lookup_store_same|].
        eapply for_each_Forall2; [|exact Hf]. apply wrap_comment_rel.
    + inversion H; subst pr'. clear H.
      eexists; split; [reflexivity|]; split; [reflexivity|].
      split; [apply same_except_refl|]. rewrite Hc.
      destruct comments as [| | | | |l|]; auto.
      destruct l; [|discriminate Ht].
      exists []. split; [reflexivity|constructor].
  - inversion H; subst pr'. clear H.
    eexists; split; [reflexivity|]; split; [reflexivity|].
    split; [apply same_except_refl|]. rewrite Hc. reflexivity.
Qed.

Lemma wrap_bodies_total (R : Runtime) (pr : pyval) :
  pr_shaped pr = true -> exists pr', wrap_bodies R pr = Ok pr'.
Proof.
  destruct pr as [| | | | | |d]; try discriminate. simpl; intros Hp.
  unfold wrap_bodies, py_get.
  destruct (loop_total (wrap_comment R) comment_shaped
              (lookup (py "comments") d) (VList [])
              (wrap_comment_total R) Hp eq_refl)
    as [Hfalsy|(items & items' & Hx & Hi & Hf)].
  - destruct (lookup (py "comments") d); simpl in *;
      [rewrite Hfalsy|]; eauto.
  - destruct (lookup (py "comments") d); simpl in *; subst;
      destruct (truthy (VList items)); eauto;
      simpl in Hi; inversion Hi; subst; simpl;
      rewrite Hf; simpl; eauto.
Qed.


(* ================================================================== *)
(** ** The claims *)

(** C1: for every request, the handler calls each method of the GitHub
    client at most once, and a call that raises is the last call of the
    request: the handler answers with an error response (status 500) and
    calls nothing again, whatever the remote side would have answered. *)
Theorem api_called_at_most_once_no_retry
  (R : Runtime) (config : Config) (o : oracle) (m : matched) (req : request) :
  error_page_renders R ->
  NoDup (map method_of (trace_of o (handle R config m req)))
  /\ forall pre c post e,
       trace_of o (handle R config m req) = pre ++ c :: post ->
       o pre c = Err e ->
       post = []
       /\ exists resp,
            result_of o (handle R config m req) = Returned resp
            /\ status resp = 500%N.
Proof.
  intros Hpage.
  destruct (disciplined_run o (handle_disciplined config m req Hpage) [])
    as (ext & Hlog & Hnd & _ & Hlast).
  unfold trace_of, result_of. simpl in Hlog. rewrite Hlog.
  split; [exact Hnd|].
  intros pre c post e Heq Hraise. apply (Hlast pre c post e Heq Hraise).
Qed.

Lemma api_called_at_most_once_no_retry_witness :
  error_page_renders demo_runtime
  /\ NoDup (map method_of
              (trace_of github_down
                 (handle demo_runtime spec_config (at_pr_detail 7)
                    plain_request)))
  /\ forall pre c post e,
       trace_of github_down
         (handle demo_runtime spec_config (at_pr_detail 7) plain_request)
       = pre ++ c :: post ->
       github_down pre c = Err e ->
       post = []
       /\ exists resp,
            result_of github_down
              (handle demo_runtime spec_config (at_pr_detail 7) plain_request)
            = Returned resp
            /\ status resp = 500%N.
Proof.
  split; [exact demo_page_renders|].
  apply (api_called_at_most_once_no_retry spec_config github_down
           (at_pr_detail 7) plain_request demo_page_renders).
Defined.

(** C2, as worded, fails on the reply route: it calls the GitHub client
    and answers with a JSON object, not with a rendered template. *)
Lemma html_of_every_api_route_counterexample :
  ~ html_of_every_api_route_as_stated demo_runtime spec_config github_up
      (at_add_reply 7) reply_request.
Proof.
  intros Hclaim.
  destruct Hclaim as (resp & Hres & page & name & ctx & Hbody & _).
  - vm_compute. discriminate.
  - vm_compute in Hres. inversion Hres; subst resp. discriminate Hbody.
Qed.

(** C2, amended: the PR list and the PR detail routes answer every request
    with a rendered template, on success and on every error alike, provided
    the error page renders; the reply route (and the health check) answers
    with a JSON object. *)
Theorem html_routes_render
  (R : Runtime) (config : Config) (o : oracle) (m : matched) (req : request) :
  error_page_renders R ->
  exists resp,
    result_of o (handle R config m req) = Returned resp
    /\ match endpoint_of m with
       | ep_index | ep_pr_detail => rendered_html R resp
       | ep_add_reply | ep_health => json_body resp
       end.
Proof.
  intros Hpage.
  destruct (handle_returns config o m req Hpage) as (resp & h & Hrun).
  exists resp. unfold result_of. rewrite Hrun. split; [reflexivity|].
  exact (leaves_run o (handle_leaves R config m req) [] Hrun).
Qed.

Lemma html_routes_render_witness :
  error_page_renders demo_runtime
  /\ exists resp,
       result_of github_up (handle demo_runtime spec_config at_index
                              plain_request) = Returned resp
       /\ rendered_html demo_runtime resp.
Proof.
  split; [exact demo_page_renders|].
  exact (html_routes_render spec_config github_up at_index plain_request
           demo_page_renders).
Defined.

(** C3: with the default state that the spec gives the configuration, a
    request to the PR list without a [state] parameter fetches the list with
    state open: no other state is ever asked for, and the list is asked for
    as soon as the repository is known. *)
Theorem index_fetches_open_by_default
  (R : Runtime) (o : oracle) (req : request) :
  lookup (py "state") (args req) = None ->
  (forall c, In c (trace_of o (index R spec_config req)) ->
             method_of c = m_get_my_pr_list ->
             c = get_my_pr_list (py "open"))
  /\ (forall owner name,
        repo_known o owner name ->
        In (get_my_pr_list (py "open"))
           (trace_of o (index R spec_config req))).
Proof.
  intros Hnone. unfold trace_of, index, index_try, multi_get.
  rewrite Hnone. simpl DEFAULT_PR_STATE. split.
  - intros c. crunch; cbn;
      intros Hin Hm; simpl in Hin;
      repeat (destruct Hin as [<-|Hin]; [try discriminate; try reflexivity|]);
      contradiction.
  - intros owner name (repo & Hrepo & Howner & Hname).
    cbn. rewrite Hrepo. cbn. rewrite Howner. cbn. rewrite Hname. crunch; cbn; auto.
Qed.

Lemma index_fetches_open_by_default_witness :
  lookup (py "state") (args plain_request) = None
  /\ In (get_my_pr_list (py "open"))
        (trace_of github_up (index demo_runtime spec_config plain_request)).
Proof.
  split; [reflexivity|].
  apply (proj2 (index_fetches_open_by_default demo_runtime github_up
                  plain_request eq_refl)
           (VStr (py "octo")) (VStr (py "app"))).
  exists (VDict [(py "owner", VStr (py "octo")); (py "name", VStr (py "app"))]).
  repeat split; reflexivity.
Defined.

(** C4: when the repository is known, a reply request whose [comment_id]
    is not empty and whose body is not empty once stripped makes exactly one
    call of [add_reply_to_comment], with the owner and name of the
    repository, the [pr_number] of the URL, the [comment_id] and the
    stripped body; when that call succeeds the answer is the JSON object
    with [success] true. *)
Theorem reply_forwarded
  (o : oracle) (n : N) (req : request) (cid : pystr) (owner name : pyval) :
  lookup (py "comment_id") (form req) = Some cid ->
  cid <> [] ->
  strip (multi_get (form req) (py "body") []) <> [] ->
  repo_known o owner name ->
  let c := add_reply_to_comment owner name n (VStr cid)
             (strip (multi_get (form req) (py "body") [])) in
  trace_of o (add_reply n req) = [get_repo_info; c]
  /\ forall v,
       o [get_repo_info] c = Ok v ->
       result_of o (add_reply n req)
       = Returned {| rbody := Json [(py "success", VBool true)];
                     status := 200 |}.
Proof.
  intros Hcid Hne Hbody (repo & Hrepo & Howner & Hname) c.
  destruct (truthy_comment_id req Hcid Hne) as [Hget Htrue].
  unfold trace_of, result_of, add_reply, add_reply_try. cbn.
  rewrite Hrepo; cbn. rewrite Howner; cbn. rewrite Hname; cbn.
  rewrite Hget, Htrue, (empty_false Hbody). cbn. fold c.
  split.
  - destruct (o [get_repo_info] c) as [v|e]; cbn; [reflexivity|].
    destruct e; reflexivity.
  - intros v ->. reflexivity.
Qed.

Lemma reply_forwarded_witness :
  trace_of github_up (add_reply 7 reply_request)
  = [get_repo_info;
     add_reply_to_comment (VStr (py "octo")) (VStr (py "app")) 7
       (VStr (py "c1")) (py "thanks")]
  /\ result_of github_up (add_reply 7 reply_request)
     = Returned {| rbody := Json [(py "success", VBool true)];
                   status := 200 |}.
Proof.
  assert (Hcid : lookup (py "comment_id") (form reply_request)
                 = Some (py "c1")) by reflexivity.
  assert (Hne : py "c1" <> []) by (intros H; vm_compute in H; discriminate H).
  assert (Hbody : strip (multi_get (form reply_request) (py "body") []) <> [])
    by (intros H; vm_compute in H; discriminate H).
  assert (Hrepo : repo_known github_up (VStr (py "octo")) (VStr (py "app"))).
  { exists (VDict [(py "owner", VStr (py "octo"));
                   (py "name", VStr (py "app"))]).
    repeat split; reflexivity. }
  destruct (@reply_forwarded github_up 7 reply_request _ _ _
              Hcid Hne Hbody Hrepo) as [Htrace Hresult].
  split; [exact Htrace|]. exact (Hresult VNone eq_refl).
Defined.

(** C5, as worded, fails on a reply whose [bodyHTML] is the empty string:
    the field is present and stays a plain string. *)
Lemma only_bodies_wrapped_counterexample :
  ~ only_bodies_wrapped_as_stated demo_runtime pr_with_empty_reply.
Proof.
  intros Hclaim.
  destruct (Hclaim _ eq_refl) as (d & d' & Hd & Hd' & _ & Hcs).
  inversion Hd; subst d. inversion Hd'; subst d'. clear Hd Hd'.
  vm_compute in Hcs. destruct Hcs as (cs' & Hcs' & Hall).
  inversion Hcs'; subst cs'. clear Hcs'.
  inversion Hall as [|c c' cs cs' Hc _]; subst.
  destruct Hc as (d & d' & Hd & Hd' & _ & _ & Hrs).
  inversion Hd; subst d. inversion Hd'; subst d'. clear Hd Hd'.
  vm_compute in Hrs. destruct Hrs as (rs' & Hrs' & Hall').
  inversion Hrs'; subst rs'. clear Hrs'.
  inversion Hall' as [|r r' rs rs' Hr _]; subst.
  destruct Hr as (d & d' & Hd & Hd' & _ & Hbody).
  inversion Hd; subst d. inversion Hd'; subst d'.
  vm_compute in Hbody. discriminate Hbody.
Qed.

(** C5, amended: for every PR whose data is found, what the PR detail page
    renders is the fetched data with every field of the PR, of its comments
    and of their replies unchanged, except that each comment has a
    [bodyHTML_safe] field, equal to its [bodyHTML] as markup (empty markup
    when [bodyHTML] is absent or empty), and that the [bodyHTML] of a reply
    is markup where it was present and not empty.  On data of the expected
    shape the wrapping goes through. *)
Theorem pr_detail_only_wraps_bodies
  (R : Runtime) (config : Config) (o : oracle) (n : N) (req : request)
  (owner name pr : pyval) :
  repo_known o owner name ->
  o [get_repo_info]
    (get_comments_for_pr owner name n (flag req (py "include_resolved")))
  = Ok pr ->
  truthy pr = true ->
  (pr_shaped pr = true -> exists pr', wrap_bodies R pr = Ok pr')
  /\ forall pr',
       wrap_bodies R pr = Ok pr' ->
       pr_rel truthy R pr pr'
       /\ forall page,
            render_template R (py "pr_detail.html")
              [(py "pr", TVal pr');
               (py "owner", TVal owner);
               (py "name", TVal name);
               (py "include_resolved",
                TVal (VBool (flag req (py "include_resolved"))));
               (py "compact_mode",
                TVal (VBool (flag req (py "compact_mode"))));
               (py "config", TConfig config)] = Ok page ->
            result_of o (pr_detail R config n req)
            = Returned {| rbody := Html page; status := 200 |}.
Proof.
  intros (repo & Hrepo & Howner & Hname) Hans Hfound.
  split; [apply wrap_bodies_total|].
  intros pr' Hwrap. split; [apply wrap_bodies_rel; exact Hwrap|].
  intros page Hrender.
  unfold result_of, pr_detail, pr_detail_try. cbn.
  rewrite Hrepo; cbn. rewrite Howner; cbn. rewrite Hname; cbn.
  rewrite Hans; cbn. rewrite Hfound; cbn. rewrite Hwrap; cbn.
  rewrite Hrender. reflexivity.
Qed.

Lemma pr_detail_only_wraps_bodies_witness :
  exists pr',
    wrap_bodies demo_runtime demo_pr = Ok pr'
    /\ pr_rel truthy demo_runtime demo_pr pr'.
Proof.
  assert (Hrepo : repo_known github_up (VStr (py "octo")) (VStr (py "app"))).
  { exists (VDict [(py "owner", VStr (py "octo"));
                   (py "name", VStr (py "app"))]).
    repeat split; reflexivity. }
  destruct (@pr_detail_only_wraps_bodies demo_runtime spec_config github_up 7
              plain_request _ _ demo_pr Hrepo eq_refl eq_refl)
    as [Htotal Hrel].
  destruct (Htotal eq_refl) as [pr' Hwrap].
  exists pr'. split; [exact Hwrap|]. exact (proj1 (Hrel pr' Hwrap)).
Defined.

(** C6: [create_app] registers four routes and no other: GET on the root
    for the PR list, GET on /pr/<int:pr_number> for the PR detail, POST on
    /pr/<int:pr_number>/reply for a reply, and GET on /health; each view
    function is reached through one of them. *)
Theorem four_routes_registered (fresh : flask_app) :
  registered fresh =
    [ {| rule := py "/"; methods := [py "GET"]; view := ep_index |};
      {| rule := py "/pr/<int:pr_number>"; methods := [py "GET"];
         view := ep_pr_detail |};
      {| rule := py "/pr/<int:pr_number>/reply"; methods := [py "POST"];
         view := ep_add_reply |};
      {| rule := py "/health"; methods := [py "GET"]; view := ep_health |} ]
  /\ url_map (create_app fresh) = url_map fresh ++ registered fresh
  /\ forall m : matched,
       exists r, In r (registered fresh) /\ view r = endpoint_of m.
Proof.
  assert (Hmap : url_map (create_app fresh) =
                 url_map fresh ++
                 [ {| rule := py "/"; methods := [py "GET"];
                      view := ep_index |};
                   {| rule := py "/pr/<int:pr_number>"; methods := [py "GET"];
                      view := ep_pr_detail |};
                   {| rule := py "/pr/<int:pr_number>/reply";
                      methods := [py "POST"]; view := ep_add_reply |};
                   {| rule := py "/health"; methods := [py "GET"];
                      view := ep_health |} ]).
  { unfold create_app, route, add_filter; simpl.
    repeat rewrite <- app_assoc. reflexivity. }
  assert (Hreg : registered fresh =
                 skipn (List.length (url_map fresh)) (url_map (create_app fresh)))
    by reflexivity.
  rewrite Hmap in Hreg.
  rewrite skipn_app, skipn_all, Nat.sub_diag in Hreg. simpl in Hreg.
  rewrite Hreg. split; [reflexivity|]. split; [exact Hmap|].
  intros []; simpl; eauto 10.
Qed.

(** C7: the health check answers every request with the same JSON object,
    status ok and service code-review-checker, makes no call to the GitHub
    client, and reads neither the request nor the configuration: two
    requests under two configurations, runtimes and remote sides get the
    same answer. *)
Theorem health_is_constant
  (R : Runtime) (config : Config) (o : oracle) (req : request) :
  result_of o (handle R config at_health req) =
    Returned {| rbody := Json [(py "status", VStr (py "ok"));
                               (py "service",
                                VStr (py "code-review-checker"))];
                status := 200 |}
  /\ trace_of o (handle R config at_health req) = []
  /\ forall (R' : Runtime) (config' : Config) (o' : oracle) (req' : request),
       run o' (handle R' config' at_health req') []
       = run o (handle R config at_health req) [].
Proof.
  split; [reflexivity|]. split; [reflexivity|].
  intros R' config' o' req'. unfold handle, health. simpl. reflexivity.
Qed.

(** C8: on a string, [format_time] always returns a string and never
    raises.  The empty string gives the empty string.  A timestamp the
    parser reads, once every Z in it is rewritten as +00:00, gives its age,
    counted from the microseconds between the clock and the timestamp: with
    [d] their whole days (rounded down) and [s] the whole seconds left
    within the day, the text is in years above 365 days, in months above 30
    days, in days from one day on, then in hours above 3600 seconds, in
    minutes above 60 seconds, and [just now] otherwise.  Any other string
    gives its first 10 characters. *)
Theorem format_time_total (C : Clock) (timestamp : pystr) :
  (exists s, format_time C timestamp = Ok s)
  /\ (timestamp = [] -> format_time C timestamp = Ok [])
  /\ (forall dt,
        timestamp <> [] ->
        fromisoformat C
          (flat_map (fun c => if (c =? 90)%N then py "+00:00" else [c])
             timestamp) = Ok dt ->
        let us := wall (now C (tzinfo dt)) - wall dt in
        let d := us / 86400000000 in
        let s := (us mod 86400000000) / 1000000 in
        0 <= s < 86400
        /\ (365 < d ->
            format_time C timestamp
            = Ok (str_of_Z (d / 365) ++ py "년 전"))
        /\ (30 < d <= 365 ->
            format_time C timestamp
            = Ok (str_of_Z (d / 30) ++ py "개월 전"))
        /\ (1 <= d <= 30 ->
            format_time C timestamp = Ok (str_of_Z d ++ py "일 전"))
        /\ (d < 1 -> 3600 < s ->
            format_time C timestamp
            = Ok (str_of_Z (s / 3600) ++ py "시간 전"))
        /\ (d < 1 -> 60 < s <= 3600 ->
            format_time C timestamp
            = Ok (str_of_Z (s / 60) ++ py "분 전"))
        /\ (d < 1 -> s <= 60 ->
            format_time C timestamp = Ok (py "방금 전")))%Z
  /\ (forall e,
        timestamp <> [] ->
        fromisoformat C
          (flat_map (fun c => if (c =? 90)%N then py "+00:00" else [c])
             timestamp) = Err e ->
        format_time C timestamp = Ok (firstn 10 timestamp)).
Proof.
  split; [|split; [|split]].
  - unfold format_time. destruct (empty timestamp); [eauto|].
    destruct (format_time_try C timestamp); eauto.
  - intros ->. reflexivity.
  - intros dt Hne Hparse us d s.
    assert (Hs : (0 <= s < 86400)%Z).
    { unfold s.
      pose proof (Z.mod_pos_bound us 86400000000 eq_refl) as Hm.
      split; [apply Z.div_pos; lia|apply Z.div_lt_upper_bound; lia]. }
    split; [exact Hs|].
    unfold format_time, format_time_try, replace_char.
    rewrite (empty_false Hne), Hparse.
    unfold rbind, datetime_sub, timedelta_of. cbv zeta. cbn [days seconds].
    fold us. fold d. fold s. clearbody s d.
    repeat split; intros;
      repeat match goal with
             | |- context [(?a >? ?b)%Z] =>
                 let H := fresh in
                 destruct (Z.gtb_spec a b) as [H|H]; try lia
             end;
      reflexivity.
  - intros e Hne Hparse. unfold format_time, format_time_try, replace_char.
    rewrite (empty_false Hne), Hparse. reflexivity.
Qed.

Lemma format_time_total_witness :
  format_time demo_clock (py "2024-01-01T00:00:00Z") = Ok (py "1년 전")
  /\ format_time
       {| fromisoformat := fromisoformat demo_clock;
          now := fun tz => {| wall := 86400000000 * 45; tzinfo := tz |} |}
       (py "2024-01-01T00:00:00Z") = Ok (py "1개월 전")
  /\ format_time
       {| fromisoformat := fromisoformat demo_clock;
          now := fun tz => {| wall := 7322000000; tzinfo := tz |} |}
       (py "2024-01-01T00:00:00Z") = Ok (py "2시간 전")
  /\ format_time
       {| fromisoformat := fromisoformat demo_clock;
          now := fun tz => {| wall := 125000000; tzinfo := tz |} |}
       (py "2024-01-01T00:00:00Z") = Ok (py "2분 전")
  /\ format_time demo_clock (py "yesterday, around noon")
     = Ok (py "yesterday,").
Proof.
  assert (Hne : py "2024-01-01T00:00:00Z" <> [])
    by (intros H; vm_compute in H; discriminate H).
  assert (Hne' : py "yesterday, around noon" <> [])
    by (intros H; vm_compute in H; discriminate H).
  split; [|split; [|split; [|split]]].
  - destruct (format_time_total demo_clock (py "2024-01-01T00:00:00Z"))
      as (_ & _ & Hread & _).
    destruct (Hread {| wall := 0; tzinfo := Some 0%Z |} Hne eq_refl)
      as (_ & Hyears & _).
    apply Hyears. vm_compute. reflexivity.
  - destruct (format_time_total
                {| fromisoformat := fromisoformat demo_clock;
                   now := fun tz =>
                     {| wall := 86400000000 * 45; tzinfo := tz |} |}
                (py "2024-01-01T00:00:00Z")) as (_ & _ & Hread & _).
    destruct (Hread {| wall := 0; tzinfo := Some 0%Z |} Hne eq_refl)
      as (_ & _ & Hmonths & _).
    apply Hmonths. vm_compute. split; [reflexivity|discriminate].
  - destruct (format_time_total
                {| fromisoformat := fromisoformat demo_clock;
                   now := fun tz => {| wall := 7322000000; tzinfo := tz |} |}
                (py "2024-01-01T00:00:00Z")) as (_ & _ & Hread & _).
    destruct (Hread {| wall := 0; tzinfo := Some 0%Z |} Hne eq_refl)
      as (_ & _ & _ & _ & Hhours & _).
    apply Hhours; vm_compute; reflexivity.
  - destruct (format_time_total
                {| fromisoformat := fromisoformat demo_clock;
                   now := fun tz => {| wall := 125000000; tzinfo := tz |} |}
                (py "2024-01-01T00:00:00Z")) as (_ & _ & Hread & _).
    destruct (Hread {| wall := 0; tzinfo := Some 0%Z |} Hne eq_refl)
      as (_ & _ & _ & _ & _ & Hminutes & _).
    apply Hminutes; vm_compute; [reflexivity|].
    split; [reflexivity|discriminate].
  - destruct (format_time_total demo_clock (py "yesterday, around noon"))
      as (_ & _ & _ & Hother).
    exact (Hother (OtherException (py "Invalid isoformat string")) Hne'
             eq_refl).
Defined.

(** C9, as worded, fails when the repository cannot be read: the form is
    checked after [get_repo_info], so an incomplete form is then answered
    with status 500. *)
Lemma reply_rejection_counterexample :
  ~ reply_rejection_as_stated github_down 7 plain_request.
Proof.
  unfold reply_rejection_as_stated. intros [_ Hif].
  destruct Hif as (d & Hd & _).
  - left. reflexivity.
  - vm_compute in Hd. discriminate Hd.
Qed.

(** C9, amended: the reply route answers with status 400 and [success]
    false if and only if [get_repo_info] gave a repository with an owner and
    a name and the [comment_id] of the form is missing or empty or its body
    is empty once stripped; and whenever the form is incomplete in that way,
    [add_reply_to_comment] is not called. *)
Theorem reply_rejected_iff (o : oracle) (n : N) (req : request) :
  (rejected (result_of o (add_reply n req)) <->
   (exists owner name, repo_known o owner name) /\ incomplete_form req)
  /\ (incomplete_form req ->
      forall c, In c (trace_of o (add_reply n req)) ->
                method_of c <> m_add_reply_to_comment).
Proof.
  rewrite incomplete_form_check.
  unfold rejected, repo_known, result_of, trace_of, add_reply, add_reply_try.
  cbn.
  destruct (o [] get_repo_info) as [repo|e0] eqn:Hrepo; cbn.
  2:{ destruct (json_except_status o e0 [get_repo_info]) as [d0 ->]; simpl.
      split.
      - split.
        + intros (d & Hd & _); discriminate Hd.
        + intros [(owner & name & repo & Hr & _) _]; discriminate Hr.
      - intros _ c [<-|[]]; discriminate. }
  destruct (getitem repo (py "owner")) as [owner|e1] eqn:Howner; cbn.
  2:{ destruct (json_except_status o e1 [get_repo_info]) as [d0 ->]; simpl.
      split.
      - split.
        + intros (d & Hd & _); discriminate Hd.
        + intros [(owner & name & repo' & Hr & Ho & _) _].
          inversion Hr; subst repo'. congruence.
      - intros _ c [<-|[]]; discriminate. }
  destruct (getitem repo (py "name")) as [name|e2] eqn:Hname; cbn.
  2:{ destruct (json_except_status o e2 [get_repo_info]) as [d0 ->]; simpl.
      split.
      - split.
        + intros (d & Hd & _); discriminate Hd.
        + intros [(owner' & name & repo' & Hr & _ & Hn) _].
          inversion Hr; subst repo'. congruence.
      - intros _ c [<-|[]]; discriminate. }
  destruct (negb (truthy (multi_get_none (form req) (py "comment_id")))
            || empty (strip (multi_get (form req) (py "body") [])))
    eqn:Hcheck; cbn.
  - split.
    + split; [intros _|intros _].
      * split; [|reflexivity]. exists owner, name, repo. auto.
      * eexists; split; [reflexivity|reflexivity].
    + intros _ c [<-|[]]; discriminate.
  - split.
    + split.
      * intros (d & Hd & _).
        destruct (o [get_repo_info] _) as [v|e3]; cbn in Hd;
          [discriminate Hd|].
        destruct (json_except_status o e3
                    [get_repo_info;
                     add_reply_to_comment owner name n
                       (multi_get_none (form req) (py "comment_id"))
                       (strip (multi_get (form req) (py "body") []))])
          as [d0 Hrun].
        rewrite Hrun in Hd. discriminate Hd.
      * intros [_ Habs]; discriminate Habs.
    + intros Habs; discriminate Habs.
Qed.

(** C10: provided the error page renders, no view function lets an
    exception out: every request gets a response; an exception raised in
    the [try] block of a view, a [GitHubAPIError] or any other, is answered
    with status 500 and a body that carries its message; and the PR detail
    page answers with status 404 when [get_comments_for_pr] returns no data
    for the PR. *)
Theorem no_exception_escapes
  (R : Runtime) (config : Config) (o : oracle) (m : matched) (req : request) :
  error_page_renders R ->
  (exists resp, result_of o (handle R config m req) = Returned resp)
  /\ (forall e,
        result_of o (try_block R config m req) = Propagated e ->
        exists resp,
          result_of o (handle R config m req) = Returned resp
          /\ status resp = 500%N
          /\ carries R config resp (str_exn e))
  /\ (forall n owner name pr_data,
        m = at_pr_detail n ->
        repo_known o owner name ->
        o [get_repo_info]
          (get_comments_for_pr owner name n (flag req (py "include_resolved")))
        = Ok pr_data ->
        truthy pr_data = false ->
        exists page,
          result_of o (handle R config m req)
          = Returned {| rbody := Html page; status := 404 |}).
Proof.
  intros Hpage. unfold result_of. rewrite handle_try_block.
  split; [|split].
  - destruct m; try rewrite run_try_except;
      destruct (run o (try_block R config _ req) []) as [[resp|e] h] eqn:Hrun;
      simpl; eauto.
    + destruct (html_except_answer config e Hpage) as (resp & -> & _); simpl; eauto.
    + destruct (html_except_answer config e Hpage) as (resp & -> & _); simpl; eauto.
    + destruct (json_except_answer R config e) as (resp & -> & _); simpl; eauto.
    + discriminate Hrun.
  - intros e He. destruct m; try rewrite run_try_except;
      destruct (run o (try_block R config _ req) []) as [[resp|e'] h] eqn:Hrun;
      simpl in He; try discriminate He; inversion He; subst e'.
    + destruct (html_except_answer config e Hpage) as (resp & -> & ? & ? & ?); simpl; eauto.
    + destruct (html_except_answer config e Hpage) as (resp & -> & ? & ? & ?); simpl; eauto.
    + destruct (json_except_answer R config e) as (resp & -> & ? & ? & ?); simpl; eauto.
    + discriminate Hrun.
  - intros n owner name pr_data -> (repo & Hrepo & Howner & Hname) Hans Hfalsy.
    destruct (Hpage
                [(py "error_title", TVal (VStr (py "PR을 찾을 수 없습니다")));
                 (py "error_message",
                  TVal (VStr (py "PR #" ++ str_of_N n
                                ++ py "을(를) 찾을 수 없습니다.")));
                 (py "config", TConfig config)]) as [page Hrender].
    exists page. unfold try_block, pr_detail_try. cbn.
    rewrite Hrepo; cbn. rewrite Howner; cbn. rewrite Hname; cbn.
    rewrite Hans; cbn. rewrite Hfalsy; cbn. rewrite Hrender. reflexivity.
Qed.

Lemma no_exception_escapes_witness :
  error_page_renders demo_runtime
  /\ (exists resp,
        result_of github_down
          (handle demo_runtime spec_config at_index plain_request)
        = Returned resp
        /\ status resp = 500%N
        /\ carries demo_runtime spec_config resp (py "gh: not logged in"))
  /\ (exists page,
        result_of github_no_pr
          (handle demo_runtime spec_config (at_pr_detail 7) plain_request)
        = Returned {| rbody := Html page; status := 404 |}).
Proof.
  split; [exact demo_page_renders|]. split.
  - exact (proj1 (proj2 (no_exception_escapes spec_config github_down
                           at_index plain_request demo_page_renders))
             (GitHubAPIError (py "gh: not logged in")) eq_refl).
  - refine (proj2 (proj2 (no_exception_escapes spec_config github_no_pr
                            (at_pr_detail 7) plain_request
                            demo_page_renders))
              7%N (VStr (py "octo")) (VStr (py "app")) VNone eq_refl _
              eq_refl eq_refl).
    exists (VDict [(py "owner", VStr (py "octo"));
                   (py "name", VStr (py "app"))]).
    repeat split; reflexivity.
Defined.

(** *** [format_time] on the sample clock *)

Example format_time_a_year_ago :
  format_time demo_clock (py "2024-01-01T00:00:00Z") = Ok (py "1년 전").
Proof. reflexivity. Qed.

Example format_time_not_a_date :
  format_time demo_clock (py "yesterday, around noon")
  = Ok (py "yesterday,").
Proof. reflexivity. Qed.

(** A [timedelta] is normalised: the seconds stay within one day. *)
Lemma timedelta_of_seconds (us : Z) :
  (0 <= seconds (timedelta_of us) < 86400)%Z.
Proof.
  unfold timedelta_of; simpl.
  pose proof (Z.mod_pos_bound us 86400000000 eq_refl) as Hm.
  split.
  - apply Z.div_pos; lia.
  - apply Z.div_lt_upper_bound; lia.
Qed.
